(** * A shallow embedding of reqselenium (src/reqselenium.py, src/mixin.py,
    src/response.py).

    The HTTP library (requests), the browser engine (selenium), the user-agent
    generator and the domain parser (tldextract) are external collaborators:
    they appear as oracles (a type class of engine operations, section
    variables for the others). The code of this repository is translated
    statement by statement into a state-and-exception monad whose state
    carries a log of the engine-visible effects (navigations, cookie adds,
    polls, sleeps, clicks). *)

From Stdlib Require Import String Ascii List ZArith Bool Lia.
Import ListNotations.
Open Scope string_scope.
Open Scope list_scope.

(** ** Python values and helpers *)

(** Python's [s[0]]: raises [IndexError] on the empty string. *)
Definition py_index0 (s : string) : option ascii :=
  String.get 0 s.

(** Python's [s[1:]]. *)
Definition py_from1 (s : string) : string :=
  match s with
  | EmptyString => EmptyString
  | String _ r => r
  end.

(** Python's [needle in hay] on strings (substring test). *)
Fixpoint py_in (needle hay : string) : bool :=
  if String.prefix needle hay then true
  else match hay with
       | EmptyString => false
       | String _ r => py_in needle r
       end.

(** Truthiness of a Python string and of an optional string ([None] is
    falsy, so is [""]). *)
Definition str_truthy (s : string) : bool :=
  negb (String.eqb s "").

Definition opt_truthy (o : option string) : bool :=
  match o with
  | None => false
  | Some s => str_truthy s
  end.

(** ** Cookies *)

(** The dict handed to [ensure_add_cookie]: keys name, value, path, expiry,
    domain ([Session.transfer_session_cookies_to_driver] builds all five). *)
Record cookie := mk_cookie {
  name : string;
  value : string;
  path : option string;
  expiry : option Z;
  domain : string
}.

(** [cookie['domain'] = d]. *)
Definition set_domain (c : cookie) (d : string) : cookie :=
  mk_cookie c.(name) c.(value) c.(path) c.(expiry) d.

(** A cookie as returned by the engine's [get_cookies()]. *)
Record driver_cookie := mk_driver_cookie {
  dc_name : string;
  dc_value : string;
  dc_domain : string
}.

(** A cookie of the requests cookie jar ([c.name], [c.value], ...). *)
Record jar_cookie := mk_jar_cookie {
  jc_name : string;
  jc_value : string;
  jc_domain : string;
  jc_path : option string;
  jc_expires : option Z
}.

(** ** Exceptions *)

(** The argument of a [str.format] call left unevaluated. *)
Inductive fmt_arg :=
| FStr (s : string)
| FCookie (c : cookie).

Inductive exn :=
| AttributeError (attr : string)
| IndexError
| KeyError (key : string)
| ValueError (template : string) (arg : fmt_arg)
| Exception (msg : string)
| UnboundLocalError (var : string)
| TimeoutException
| WebDriverException (template : string) (arg : fmt_arg)
| TypeError (msg : string).

Inductive result (A : Type) :=
| Ok (a : A)
| Err (e : exn).
Arguments Ok {A} a.
Arguments Err {A} e.

(** ** A state-and-exception monad *)

Definition SE (S A : Type) : Type := S -> result A * S.

Definition ret {S A} (a : A) : SE S A := fun s => (Ok a, s).
Definition raise {S A} (e : exn) : SE S A := fun s => (Err e, s).
Definition bind {S A B} (m : SE S A) (k : A -> SE S B) : SE S B :=
  fun s => match m s with
           | (Ok a, s') => k a s'
           | (Err e, s') => (Err e, s')
           end.
Definition get_st {S} : SE S S := fun s => (Ok s, s).
Definition put_st {S} (s : S) : SE S unit := fun _ => (Ok tt, s).

(** A computation that returns or raises without touching the state. *)
Definition lift_result {S A} (r : result A) : SE S A := fun s => (r, s).

Notation "x <- m ;; k" := (bind m (fun x => k))
  (at level 61, m at next level, right associativity).
Notation "m ;;; k" := (bind m (fun _ => k))
  (at level 61, right associativity).

(** Python's [for x in xs: body(x)]. *)
Fixpoint for_each {S A} (xs : list A) (body : A -> SE S unit) : SE S unit :=
  match xs with
  | [] => ret tt
  | x :: r => body x ;;; for_each r body
  end.

(** ** The browser engine (selenium) and the domain parser (tldextract) *)

(** Effects of the engine observable by the claims. *)
Inductive event :=
| EvGet (url : string)
| EvAddCookie (c : cookie)
| EvGetCookies
| EvPoll (n : nat)
| EvSleep (ms : Z)
| EvExecScript (script : string)
| EvClick (attempt : nat).

(** The expected conditions of [ensure_element] that yield an element. *)
Inductive elem_condition :=
| VisibilityOfElementLocated
| ElementToBeClickable
| PresenceOfElementLocated.

(** A selenium element; [ensure_click] records whether [ensure_element]
    monkey-patched the robust click onto it. *)
Record webelement := mk_webelement {
  we_id : nat;
  ensure_click : bool
}.

(** The Python values an expected condition returns. A [WebElement] defines
    neither [__bool__] nor [__len__], so it is truthy. *)
Inductive pyval :=
| PNone
| PFalse
| PTrue
| PElem (e : webelement).

Definition truthy (v : pyval) : bool :=
  match v with
  | PNone | PFalse => false
  | PTrue | PElem _ => true
  end.

(** ** Driver construction *)

Inductive driver_class :=
| ReqSeleniumChrome
| ReqSeleniumFirefox.

(** [selenium.webdriver.common.proxy.Proxy] as the Session fills it. *)
Record proxy := mk_proxy {
  proxy_type : string;
  proxy_http : string;
  proxy_ssl : string
}.

(** [webdriver.DesiredCapabilities.FIREFOX] or [.CHROME], after
    [proxy.add_to_capabilities]. *)
Record capabilities := mk_capabilities {
  caps_browser : string;
  caps_proxy : option proxy
}.

Record firefox_profile := mk_firefox_profile {
  profile_directory : string;
  preferences : list (string * string)
}.

(** The keyword arguments the Session passes to [ReqSeleniumChrome] or
    [ReqSeleniumFirefox]. *)
Record ctor_args := mk_ctor_args {
  ca_class : driver_class;
  ca_timeout : Z;
  ca_desired_capabilities : option capabilities;
  ca_firefox_profile : option firefox_profile
}.

(** The keyword arguments [DriverMixin.__init__] forwards to the selenium
    class: it deletes [desired_capabilities] and keeps the rest. *)
Record engine_kwargs := mk_engine_kwargs {
  ek_class : driver_class;
  ek_timeout : Z;
  ek_firefox_profile : option firefox_profile
}.

(** Whether the selenium 3 constructor of the class takes the [timeout]
    keyword [DriverMixin.__init__] forwards: [webdriver.Firefox.__init__]
    has [timeout=30], [webdriver.Chrome.__init__(executable_path, port,
    options, service_args, desired_capabilities, service_log_path,
    chrome_options, keep_alive)] has none and raises [TypeError]. *)
Definition webdriver_accepts_timeout (c : driver_class) : bool :=
  match c with
  | ReqSeleniumChrome => false
  | ReqSeleniumFirefox => true
  end.

Definition timeout_kwarg_msg : string :=
  "__init__() got an unexpected keyword argument 'timeout'".

(** Operations of the engine used by the mixin. [eng_current_url] is [None]
    when [tldextract.extract(self.current_url)] raises [AttributeError]. The
    expected conditions are indexed by the poll number: the page changes
    while [WebDriverWait] polls. The element conditions return the element
    or [False]; the invisibility condition returns [True], the hidden
    element or [False]. *)
Class BrowserEngine (E : Type) := {
  eng_get : E -> string -> E;
  eng_add_cookie : E -> cookie -> E;
  eng_get_cookies : E -> list driver_cookie;
  eng_current_url : E -> option string;
  eng_element_ec : E -> elem_condition -> string -> string -> nat -> option webelement;
  eng_invisibility_ec : E -> string -> string -> nat -> pyval;
  (** outcome of the [i]-th [element.click()]: [None] when it returns,
      [Some m] when it raises [WebDriverException] with [str(e) = m] *)
  eng_click : E -> webelement -> nat -> option string;
  (** the engine the selenium constructor starts from the keywords it
      accepts *)
  eng_start : engine_kwargs -> E
}.

(** tldextract's [extract(x).registered_domain] and [extract(x).fqdn]. *)
Class TldExtract := {
  registered_domain : string -> string;
  fqdn : string -> string
}.

(** ** src/mixin.py: DriverMixin *)

Section Mixin.
Context {E : Type} `{BrowserEngine E} `{TldExtract}.

(** A driver object: [self.default_timeout], the arguments it was built
    with, the engine behind it and the log of its effects. *)
Record driver := mk_driver {
  d_default_timeout : Z;
  d_init_kwargs : ctor_args;
  d_eng : E;
  d_log : list event
}.

Definition log (ev : event) : SE driver unit :=
  fun d => (Ok tt, mk_driver d.(d_default_timeout) d.(d_init_kwargs) d.(d_eng)
                              (d.(d_log) ++ [ev])).

Definition set_eng (e : E) : SE driver unit :=
  fun d => (Ok tt, mk_driver d.(d_default_timeout) d.(d_init_kwargs) e d.(d_log)).

(** [DriverMixin.__init__]: [self.default_timeout = kwargs['timeout']],
    [del kwargs['desired_capabilities']], then the selenium constructor with
    the remaining keywords, which raises [TypeError] when it has no
    [timeout] parameter (the half-built object is then discarded). *)
Definition DriverMixin_init (kw : ctor_args) : result driver :=
  if webdriver_accepts_timeout kw.(ca_class) then
    Ok (mk_driver kw.(ca_timeout) kw
          (eng_start (mk_engine_kwargs kw.(ca_class) kw.(ca_timeout) kw.(ca_firefox_profile)))
          [])
  else Err (TypeError timeout_kwarg_msg).

(** [self.get(url)], [self.add_cookie(c)], [self.get_cookies()]. *)
Definition drv_get (url : string) : SE driver unit :=
  log (EvGet url) ;;; d <- get_st ;; set_eng (eng_get d.(d_eng) url).

Definition add_cookie (c : cookie) : SE driver unit :=
  log (EvAddCookie c) ;;; d <- get_st ;; set_eng (eng_add_cookie d.(d_eng) c).

Definition get_cookies : SE driver (list driver_cookie) :=
  log EvGetCookies ;;; d <- get_st ;; ret (eng_get_cookies d.(d_eng)).

(** [DriverMixin.is_cookie_in_driver]. *)
Definition cookie_matches (c : cookie) (dc : driver_cookie) : bool :=
  String.eqb c.(name) dc.(dc_name) &&
  String.eqb c.(value) dc.(dc_value) &&
  (String.eqb c.(domain) dc.(dc_domain) ||
   String.eqb ("." ++ c.(domain)) dc.(dc_domain)).

Definition is_cookie_in_driver (c : cookie) : SE driver bool :=
  cs <- get_cookies ;; ret (existsb (cookie_matches c) cs).

Definition cookie_failed_msg : string :=
  "Couldn't add the following cookie to the webdriver" ++ String "010" "{}" ++ String "010" "".

(** [if override_domain: cookie['domain'] = override_domain]. *)
Definition override_cookie (c : cookie) (override_domain : option string) : cookie :=
  match override_domain with
  | Some od => if str_truthy od then set_domain c od else c
  | None => c
  end.

(** [cookie['domain'] if cookie['domain'][0] != '.' else cookie['domain'][1:]];
    [None] when [cookie['domain'][0]] raises [IndexError]. *)
Definition cookie_domain_of (d : string) : option string :=
  match py_index0 d with
  | None => None
  | Some c0 => Some (if negb (Ascii.eqb c0 ".") then d else py_from1 d)
  end.

(** [tldextract.extract(self.current_url).fqdn], or [''] on [AttributeError]. *)
Definition browser_domain_of (e : E) : string :=
  match eng_current_url e with
  | Some u => fqdn u
  | None => ""
  end.

(** [DriverMixin.ensure_add_cookie]. *)
Definition ensure_add_cookie (cookie0 : cookie) (override_domain : option string)
  : SE driver unit :=
  let cookie := override_cookie cookie0 override_domain in
  match cookie_domain_of cookie.(domain) with
  | None => raise IndexError
  | Some cookie_domain =>
    d <- get_st ;;
    let browser_domain := browser_domain_of d.(d_eng) in
    (if negb (py_in cookie_domain browser_domain)
     then drv_get ("http://" ++ cookie_domain) else ret tt) ;;;
    add_cookie cookie ;;;
    ok <- is_cookie_in_driver cookie ;;
    if ok then ret tt
    else
      let cookie' := set_domain cookie (registered_domain cookie.(domain)) in
      add_cookie cookie' ;;;
      ok' <- is_cookie_in_driver cookie' ;;
      if ok' then ret tt
      else raise (WebDriverException cookie_failed_msg (FCookie cookie'))
  end.

(** selenium's [WebDriverWait(driver, timeout).until(method)]: evaluate the
    condition, return its value when truthy, otherwise sleep the poll
    frequency (0.5s) and retry until [timeout] has elapsed, then raise
    [TimeoutException]. [fuel] is the number of retries left. *)
Fixpoint until_loop (cond : nat -> pyval) (i fuel : nat) : SE driver pyval :=
  log (EvPoll i) ;;;
  let v := cond i in
  if truthy v then ret v
  else
    log (EvSleep 500) ;;;
    match fuel with
    | O => raise TimeoutException
    | S f => until_loop cond (S i) f
    end.

Definition wait_until (timeout : Z) (cond : nat -> pyval) : SE driver pyval :=
  until_loop cond 0 (Z.to_nat (2 * timeout)).

Definition elem_ec (e : E) (c : elem_condition) (by_ sel : string) (i : nat) : pyval :=
  match eng_element_ec e c by_ sel i with
  | Some el => PElem el
  | None => PFalse
  end.

(** The [locators] dict of [ensure_element] (values are selenium's [By]). *)
Definition locators : list (string * string) :=
  [("id", "id"); ("name", "name"); ("xpath", "xpath");
   ("link_text", "link text"); ("partial_link_text", "partial link text");
   ("tag_name", "tag name"); ("class_name", "class name");
   ("css_selector", "css selector")].

Fixpoint dict_lookup (k : string) (l : list (string * string)) : option string :=
  match l with
  | [] => None
  | (k', v) :: r => if String.eqb k k' then Some v else dict_lookup k r
  end.

Definition state_msg : string :=
  "The 'state' argument must be 'visible', 'clickable', 'present' or 'invisible', not '{}'".

(** [element.ensure_click = partial(_ensure_click, element)]. *)
Definition attach_ensure_click (v : pyval) : SE driver pyval :=
  match v with
  | PElem e => ret (PElem (mk_webelement e.(we_id) true))
  | PTrue => raise (AttributeError "ensure_click")
  | PNone | PFalse => ret v
  end.

(** [DriverMixin.ensure_element]. *)
Definition ensure_element (locator selector state : string) (timeout : option Z)
  : SE driver pyval :=
  match dict_lookup locator locators with
  | None => raise (KeyError locator)
  | Some by_ =>
    d <- get_st ;;
    let timeout := match timeout with
                   | Some t => if Z.eqb t 0 then d.(d_default_timeout) else t
                   | None => d.(d_default_timeout)
                   end in
    element <-
      (if String.eqb state "visible" then
         wait_until timeout (elem_ec d.(d_eng) VisibilityOfElementLocated by_ selector)
       else if String.eqb state "clickable" then
         wait_until timeout (elem_ec d.(d_eng) ElementToBeClickable by_ selector)
       else if String.eqb state "present" then
         wait_until timeout (elem_ec d.(d_eng) PresenceOfElementLocated by_ selector)
       else if String.eqb state "invisible" then
         wait_until timeout (eng_invisibility_ec d.(d_eng) by_ selector) ;;; ret PNone
       else raise (ValueError state_msg (FStr state))) ;;
    if truthy element then attach_ensure_click element else ret element
  end.

(** The script [_ensure_click] runs to centre the element in the viewport. *)
Definition scroll_script : string :=
  "var viewPortHeight = Math.max(document.documentElement.clientHeight, window.innerHeight || 0);" ++
  "var elementTop = arguments[0].getBoundingClientRect().top;" ++
  "window.scrollBy(0, elementTop-(viewPortHeight/2));".

Definition click_failed_msg : string :=
  "Couldn't click item after trying 10 times, got error message: " ++ String "010" "{}".

(** The [for _ in range(...)] loop of [_ensure_click]; [i] is the attempt
    number, [exception_message] the local variable of the same name. *)
Fixpoint click_loop (el : webelement) (i remaining : nat)
    (exception_message : option string) : SE driver unit :=
  match remaining with
  | O =>
    match exception_message with
    | Some m => raise (WebDriverException click_failed_msg (FStr m))
    | None => raise (UnboundLocalError "exception_message")
    end
  | S r =>
    log (EvClick i) ;;;
    d <- get_st ;;
    match eng_click d.(d_eng) el i with
    | None => ret tt
    | Some m => log (EvSleep 200) ;;; click_loop el (S i) r (Some m)
    end
  end.

(** [_ensure_click(self)]; [self.parent] is the driver. *)
Definition _ensure_click (el : webelement) : SE driver unit :=
  log (EvExecScript scroll_script) ;;;
  click_loop el 0 10 None.

End Mixin.

(** ** src/response.py *)

Record response := mk_response {
  url : string;
  text : string
}.

(** [ReqSeleniumResponse(response)]: the wrapped response and the
    selector cache, empty until the first query. *)
Record ReqSeleniumResponse := mk_ReqSeleniumResponse {
  _response : response;
  _selector : option string
}.

Definition ReqSeleniumResponse_init (r : response) : ReqSeleniumResponse :=
  mk_ReqSeleniumResponse r None.

(** ** src/reqselenium.py: Session *)

Inductive verb := GET | POST | PUT.

Section SessionDefs.
Context {E : Type} `{BrowserEngine E} `{TldExtract}.

(** [os.path.normpath(os.path.join(os.getcwd(), 'profile'))]. *)
Variable profile_path : string.

(** [requests.Session.request(verb, url)] as the base class runs it: from
    the jar and the headers, the response after redirects (or the exception
    it raises) and the jar as requests left it, with the cookies of every
    response received before returning or raising. *)
Variable requests_send :
  verb -> string -> list jar_cookie -> list (string * string) ->
  result response * list jar_cookie.

(** The attributes of a Session. [_last_requests_url] is [None] while the
    attribute has never been assigned. *)
Record session := mk_session {
  _desired_capabilities : option capabilities;
  _driver : option (@driver E);
  browser : string;
  default_timeout : Z;
  http_proxy : option string;
  ssl_proxy : option string;
  user_agent : string;
  _driver_initializer : driver_class;
  _last_requests_url : option string;
  cookies : list jar_cookie;
  headers : list (string * string)
}.

Definition set_desired_capabilities (s : session) (c : option capabilities) : session :=
  mk_session c s.(_driver) s.(browser) s.(default_timeout) s.(http_proxy)
    s.(ssl_proxy) s.(user_agent) s.(_driver_initializer) s.(_last_requests_url)
    s.(cookies) s.(headers).

Definition set_driver (s : session) (d : option driver) : session :=
  mk_session s.(_desired_capabilities) d s.(browser) s.(default_timeout)
    s.(http_proxy) s.(ssl_proxy) s.(user_agent) s.(_driver_initializer)
    s.(_last_requests_url) s.(cookies) s.(headers).

Definition set_after_request (s : session) (u : string) (jar : list jar_cookie) : session :=
  mk_session s.(_desired_capabilities) s.(_driver) s.(browser) s.(default_timeout)
    s.(http_proxy) s.(ssl_proxy) s.(user_agent) s.(_driver_initializer)
    (Some u) jar s.(headers).

Definition set_cookies (s : session) (jar : list jar_cookie) : session :=
  mk_session s.(_desired_capabilities) s.(_driver) s.(browser) s.(default_timeout)
    s.(http_proxy) s.(ssl_proxy) s.(user_agent) s.(_driver_initializer)
    s.(_last_requests_url) jar s.(headers).

Definition browser_msg : string :=
  "Invalid Argument: browser must be chrome or firefox, not: %s".

(** [Session.__init__]: [random_agent] is the draw of
    [r_agent.random_agent('desktop', 'windows')], [default_headers] the
    headers [requests.Session.__init__] installs. *)
Definition Session_init (browser : string) (default_timeout : Z)
    (http_proxy ssl_proxy : option string) (random_agent : string)
    (default_headers : list (string * string)) : result session :=
  let s := fun init => mk_session None None browser default_timeout http_proxy
                         ssl_proxy random_agent init None [] default_headers in
  if negb (existsb (String.eqb browser) ["chrome"; "firefox"]) then
    Err (ValueError browser_msg (FStr browser))
  else if String.eqb browser "chrome" then Ok (s ReqSeleniumChrome)
  else Ok (s ReqSeleniumFirefox).

(** The [desired_capabilities] property. The dict it returns and caches is
    selenium's class-level [DesiredCapabilities.FIREFOX] or [.CHROME],
    shared by every Session of the process; this model follows one Session,
    and the record is the dict as this Session's own
    [proxy.add_to_capabilities] leaves it. *)
Definition desired_capabilities : SE session (option capabilities) :=
  s <- get_st ;;
  match s.(http_proxy), s.(ssl_proxy), s.(_desired_capabilities) with
  | Some hp, Some sp, None =>
    if str_truthy hp && str_truthy sp then
      let proxy := mk_proxy "MANUAL" hp sp in
      let caps := mk_capabilities
                    (if String.eqb s.(browser) "firefox" then "firefox" else "chrome")
                    (Some proxy) in
      put_st (set_desired_capabilities s (Some caps)) ;;; ret (Some caps)
    else ret s.(_desired_capabilities)
  | _, _, _ => ret s.(_desired_capabilities)
  end.

(** The arguments of [ReqSeleniumChrome(...)] in [_start_chromedriver]. *)
Definition chromedriver_args : SE session ctor_args :=
  s <- get_st ;;
  caps <- desired_capabilities ;;
  ret (mk_ctor_args ReqSeleniumChrome s.(default_timeout) caps None).

(** The arguments of [ReqSeleniumFirefox(...)] in [_start_geckodriver]. *)
Definition geckodriver_args : SE session ctor_args :=
  s <- get_st ;;
  let profile := mk_firefox_profile profile_path
                   [("general.useragent.override", s.(user_agent))] in
  caps <- desired_capabilities ;;
  ret (mk_ctor_args ReqSeleniumFirefox s.(default_timeout) caps (Some profile)).

(** [Session._start_chromedriver]. *)
Definition _start_chromedriver : SE session driver :=
  kw <- chromedriver_args ;; lift_result (DriverMixin_init kw).

(** [Session._start_geckodriver]. *)
Definition _start_geckodriver : SE session driver :=
  kw <- geckodriver_args ;; lift_result (DriverMixin_init kw).

(** The constructor arguments [self._driver_initializer] evaluates. *)
Definition initializer_args (i : driver_class) : SE session ctor_args :=
  match i with
  | ReqSeleniumChrome => chromedriver_args
  | ReqSeleniumFirefox => geckodriver_args
  end.

Definition run_initializer (i : driver_class) : SE session driver :=
  match i with
  | ReqSeleniumChrome => _start_chromedriver
  | ReqSeleniumFirefox => _start_geckodriver
  end.

(** The [driver] property: built on first access, kept afterwards. *)
Definition driver_prop : SE session driver :=
  s <- get_st ;;
  match s.(_driver) with
  | Some d => ret d
  | None =>
    d <- run_initializer s.(_driver_initializer) ;;
    s' <- get_st ;;
    put_st (set_driver s' (Some d)) ;;; ret d
  end.

(** [self.driver.m(...)]: run a driver method on the session's driver. *)
Definition on_driver {A} (m : SE driver A) : SE session A :=
  d <- driver_prop ;;
  s <- get_st ;;
  let (r, d') := m d in
  put_st (set_driver s (Some d')) ;;;
  match r with
  | Ok a => ret a
  | Err e => raise e
  end.

Definition transfer_msg : string :=
  "Trying to transfer cookies to selenium without specifying a domain and without having visited any page in the current session".

Definition jar_to_cookie (c : jar_cookie) : cookie :=
  mk_cookie c.(jc_name) c.(jc_value) c.(jc_path) c.(jc_expires) c.(jc_domain).

(** [Session.transfer_session_cookies_to_driver(domain)]. *)
Definition transfer_session_cookies_to_driver (domain0 : option string)
  : SE session unit :=
  s <- get_st ;;
  dom <- (if negb (opt_truthy domain0) then
            match s.(_last_requests_url) with
            | None => raise (AttributeError "_last_requests_url")
            | Some u =>
              if str_truthy u then ret (registered_domain u)
              else raise (Exception transfer_msg)
            end
          else ret (match domain0 with Some d => d | None => "" end)) ;;
  for_each (filter (fun c => py_in dom c.(jc_domain)) s.(cookies))
    (fun c => on_driver (ensure_add_cookie (jar_to_cookie c) None)).

(** [Session.get], [Session.post], [Session.put]. *)
Definition session_request (v : verb) (url_arg : string) : SE session ReqSeleniumResponse :=
  s <- get_st ;;
  let (r, jar) := requests_send v url_arg s.(cookies) s.(headers) in
  match r with
  | Err e => put_st (set_cookies s jar) ;;; raise e
  | Ok resp =>
    put_st (set_after_request s resp.(url) jar) ;;;
    ret (ReqSeleniumResponse_init resp)
  end.

Definition Session_get := session_request GET.
Definition Session_post := session_request POST.
Definition Session_put := session_request PUT.

End SessionDefs.

(** ** The rest of src/mixin.py, src/response.py and src/reqselenium.py *)

(** [parsel.Selector(text=t)], known by the text it parses. *)
Record selector := mk_selector { sel_text : string }.

(** parsel's query methods of a [Selector]. *)
Class Parsel := {
  sel_xpath : selector -> string -> list string;
  sel_css : selector -> string -> list string;
  sel_re : selector -> string -> list string;
  sel_re_first : selector -> string -> option string
}.

(** The engine operations the remaining code uses: [execute_script] with a
    script returning a string, and [page_source]. *)
Class ScriptEngine (E : Type) := {
  eng_execute_script : E -> string -> string;
  eng_page_source : E -> string
}.

(** The methods [ensure_element_by_*] of DriverMixin. *)
Section MixinRest.
Context {E : Type} `{BrowserEngine E} `{ScriptEngine E} `{Parsel}.

Definition ensure_element_by_id (selector state : string) (timeout : option Z) :=
  ensure_element "id" selector state timeout.
Definition ensure_element_by_name (selector state : string) (timeout : option Z) :=
  ensure_element "name" selector state timeout.
Definition ensure_element_by_xpath (selector state : string) (timeout : option Z) :=
  ensure_element "xpath" selector state timeout.
Definition ensure_element_by_link_text (selector state : string) (timeout : option Z) :=
  ensure_element "link_text" selector state timeout.
Definition ensure_element_by_partial_link_text (selector state : string) (timeout : option Z) :=
  ensure_element "partial_link_text" selector state timeout.
Definition ensure_element_by_tag_name (selector state : string) (timeout : option Z) :=
  ensure_element "tag_name" selector state timeout.
Definition ensure_element_by_class_name (selector state : string) (timeout : option Z) :=
  ensure_element "class_name" selector state timeout.
Definition ensure_element_by_css_selector (selector state : string) (timeout : option Z) :=
  ensure_element "css_selector" selector state timeout.

Definition ensure_element_by_methods :
  list (string -> string -> option Z -> SE (@driver E) pyval) :=
  [ensure_element_by_id; ensure_element_by_name; ensure_element_by_xpath;
   ensure_element_by_link_text; ensure_element_by_partial_link_text;
   ensure_element_by_tag_name; ensure_element_by_class_name;
   ensure_element_by_css_selector].

(** [self.execute_script(script)] for a script that returns a string. *)
Definition execute_script (script : string) : SE driver string :=
  log (EvExecScript script) ;;; d <- get_st ;; ret (eng_execute_script d.(d_eng) script).

(** The [selector] property of DriverMixin: [Selector(text=self.page_source)],
    parsed anew on each access. *)
Definition driver_selector : SE driver selector :=
  d <- get_st ;; ret (mk_selector (eng_page_source d.(d_eng))).

Definition driver_xpath (q : string) : SE driver (list string) :=
  s <- driver_selector ;; ret (sel_xpath s q).
Definition driver_css (q : string) : SE driver (list string) :=
  s <- driver_selector ;; ret (sel_css s q).
Definition driver_re (q : string) : SE driver (list string) :=
  s <- driver_selector ;; ret (sel_re s q).
Definition driver_re_first (q : string) : SE driver (option string) :=
  s <- driver_selector ;; ret (sel_re_first s q).

End MixinRest.

(** [ReqSeleniumResponse.selector]: parse [self._response.text] on the first
    access, reuse [self._selector] afterwards. *)
Definition response_selector : SE ReqSeleniumResponse selector :=
  r <- get_st ;;
  match r.(_selector) with
  | Some t => ret (mk_selector t)
  | None =>
    put_st (mk_ReqSeleniumResponse r.(_response) (Some r.(_response).(text))) ;;;
    ret (mk_selector r.(_response).(text))
  end.

Section ResponseQueries.
Context `{Parsel}.

Definition response_xpath (q : string) : SE ReqSeleniumResponse (list string) :=
  s <- response_selector ;; ret (sel_xpath s q).
Definition response_css (q : string) : SE ReqSeleniumResponse (list string) :=
  s <- response_selector ;; ret (sel_css s q).
Definition response_re (q : string) : SE ReqSeleniumResponse (list string) :=
  s <- response_selector ;; ret (sel_re s q).
Definition response_re_first (q : string) : SE ReqSeleniumResponse (option string) :=
  s <- response_selector ;; ret (sel_re_first s q).

End ResponseQueries.

(** ASCII lower-casing, for the keys of requests' [CaseInsensitiveDict]. *)
Definition lower_ascii (c : ascii) : ascii :=
  let n := nat_of_ascii c in
  if (Nat.leb 65 n && Nat.leb n 90)%bool then ascii_of_nat (n + 32) else c.

Fixpoint lower (s : string) : string :=
  match s with
  | EmptyString => EmptyString
  | String c r => String (lower_ascii c) (lower r)
  end.

Definition key_ci (k k' : string) : bool := String.eqb (lower k) (lower k').

(** [headers[k] = v] on a [CaseInsensitiveDict]: the entry whose key matches
    case-insensitively is replaced in place by [(k, v)], otherwise [(k, v)]
    is added at the end. *)
Definition headers_set (hs : list (string * string)) (k v : string) : list (string * string) :=
  if existsb (fun kv => key_ci (fst kv) k) hs
  then map (fun kv => if key_ci (fst kv) k then (k, v) else kv) hs
  else hs ++ [(k, v)].

(** [headers.update({k: v})]. *)
Definition headers_update (hs : list (string * string)) (kv : string * string) :=
  headers_set hs (fst kv) (snd kv).

(** Case-insensitive [headers[k]]. *)
Fixpoint headers_get (hs : list (string * string)) (k : string) : option string :=
  match hs with
  | [] => None
  | (k', v) :: r => if key_ci k' k then Some v else headers_get r k
  end.



Section SessionRest.
Context {E : Type} `{BrowserEngine E} `{ScriptEngine E} `{TldExtract}.
Variable profile_path : string.

Definition set_headers (s : @session E) (hs : list (string * string)) : session :=
  mk_session s.(_desired_capabilities) s.(_driver) s.(browser) s.(default_timeout)
    s.(http_proxy) s.(ssl_proxy) s.(user_agent) s.(_driver_initializer)
    s.(_last_requests_url) s.(cookies) hs.

Definition user_agent_script : string := "return navigator.userAgent;".

(** [Session.copy_user_agent_from_driver]; its two [print] calls write to
    stdout only and are not modelled. *)
Definition copy_user_agent_from_driver : SE session unit :=
  selenium_user_agent <- on_driver profile_path (execute_script user_agent_script) ;;
  s <- get_st ;;
  put_st (set_headers s (headers_update s.(headers) ("user-agent", selenium_user_agent))).


End SessionRest.

(** ** A concrete engine for running the model *)

Module Sample.

Record engine := mk_engine {
  te_url : option string;
  te_cookies : list driver_cookie;
  te_accepts : bool
}.

#[export] Instance engine_ops : BrowserEngine engine := {
  eng_get e u := mk_engine (Some u) e.(te_cookies) e.(te_accepts);
  eng_add_cookie e c :=
    if e.(te_accepts)
    then mk_engine e.(te_url)
           (mk_driver_cookie c.(name) c.(value) c.(domain) :: e.(te_cookies))
           e.(te_accepts)
    else e;
  eng_get_cookies e := e.(te_cookies);
  eng_current_url e := e.(te_url);
  eng_element_ec e c by_ sel i := if Nat.ltb i 3 then None else Some (mk_webelement 7 false);
  eng_invisibility_ec e by_ sel i := if Nat.ltb i 2 then PFalse else PTrue;
  eng_click e el i := if Nat.ltb i 2 then Some "element click intercepted" else None;
  eng_start kw := mk_engine None [] true
}.

(** A domain parser good enough for hosts of the form [name.tld]. *)
Definition strip_scheme (u : string) : string :=
  if String.prefix "http://" u then substring 7 (String.length u - 7) u else u.

#[export] Instance tld_ops : TldExtract := {
  registered_domain u := strip_scheme u;
  fqdn u := strip_scheme u
}.

#[export] Instance script_ops : ScriptEngine engine := {
  eng_execute_script e js := "Mozilla/5.0 (X11; Linux x86_64) Gecko/20100101 Firefox/118.0";
  eng_page_source e := "<html><body>page</body></html>"
}.

(** A parser stand-in that answers every query with the parsed text. *)
#[export] Instance parsel_ops : Parsel := {
  sel_xpath s q := [s.(sel_text)];
  sel_css s q := [s.(sel_text)];
  sel_re s q := [];
  sel_re_first s q := None
}.

Definition fresh_driver (accepts : bool) : driver :=
  mk_driver 30 (mk_ctor_args ReqSeleniumFirefox 30 None None)
    (mk_engine None [] accepts) [].

Definition site_cookie : cookie :=
  mk_cookie "a" "1" None None ".site.test".

Definition firefox_agent : string :=
  "Mozilla/5.0 (Windows NT 10.0; Win64; x64; rv:118.0) Gecko/20100101 Firefox/118.0".

Definition requests_headers : list (string * string) :=
  [("User-Agent", "python-requests/2.31.0"); ("Accept", "*/*")].

Definition sample_session : @session engine :=
  mk_session None None "firefox" 30 None None firefox_agent ReqSeleniumFirefox
    None [mk_jar_cookie "sid" "42" ".site.test" (Some "/") None] requests_headers.

(** A requests stand-in: every request ends on [http://site.test/home]. *)
Definition sample_send (v : verb) (u : string) (jar : list jar_cookie)
    (hd : list (string * string)) : result response * list jar_cookie :=
  (Ok (mk_response "http://site.test/home" "<html></html>"), jar).

End Sample.

Import Sample.

Example sample_add_cookie :
  ensure_add_cookie site_cookie None (fresh_driver true) =
  (Ok tt, mk_driver 30 (mk_ctor_args ReqSeleniumFirefox 30 None None)
            (mk_engine (Some "http://site.test")
               [mk_driver_cookie "a" "1" ".site.test"] true)
            [EvGet "http://site.test"; EvAddCookie site_cookie; EvGetCookies]).
Proof. reflexivity. Qed.

Example sample_add_cookie_refused :
  ensure_add_cookie site_cookie None (fresh_driver false) =
  (Err (WebDriverException cookie_failed_msg (FCookie site_cookie)),
   mk_driver 30 (mk_ctor_args ReqSeleniumFirefox 30 None None)
     (mk_engine (Some "http://site.test") [] false)
     [EvGet "http://site.test"; EvAddCookie site_cookie; EvGetCookies;
      EvAddCookie site_cookie; EvGetCookies]).
Proof. reflexivity. Qed.

Example sample_element :
  fst (ensure_element "id" "login" "visible" None (fresh_driver true)) =
  Ok (PElem (mk_webelement 7 true)).
Proof. reflexivity. Qed.

Example sample_click :
  d_log (snd (_ensure_click (mk_webelement 7 true) (fresh_driver true))) =
  [EvExecScript scroll_script; EvClick 0; EvSleep 200; EvClick 1; EvSleep 200; EvClick 2].
Proof. reflexivity. Qed.

(** * Properties *)

(** ** DriverMixin.ensure_add_cookie *)

Section CookieBridge.
Context {E : Type} `{BrowserEngine E} `{TldExtract}.

Definition is_nav (ev : event) : bool :=
  match ev with EvGet _ => true | _ => false end.

(** The cookies submitted to the engine's [add_cookie], in order. *)
Definition cookie_adds (t : list event) : list cookie :=
  flat_map (fun ev => match ev with EvAddCookie c => [c] | _ => [] end) t.

(** The engine right before the first [add_cookie]. *)
Definition engine_before_add (d : @driver E) (cd : string) : E :=
  if py_in cd (browser_domain_of d.(d_eng)) then d.(d_eng)
  else eng_get d.(d_eng) ("http://" ++ cd).

Definition widened (c : cookie) : cookie :=
  set_domain c (registered_domain c.(domain)).

(** [is_cookie_in_driver] evaluated on an engine. *)
Definition verified (c : cookie) (e : E) : bool :=
  existsb (cookie_matches c) (eng_get_cookies e).

Lemma log_run (ev : event) (d : @driver E) :
  log ev d = (Ok tt, mk_driver d.(d_default_timeout) d.(d_init_kwargs) d.(d_eng)
                                (d.(d_log) ++ [ev])).
Proof. reflexivity. Qed.

(** The complete run of [ensure_add_cookie] once the domain is normalized. *)
Lemma ensure_add_cookie_run (d : @driver E) (c : cookie) (od : option string) (cd : string) :
  cookie_domain_of (override_cookie c od).(domain) = Some cd ->
  let c1 := override_cookie c od in
  let c2 := widened c1 in
  let e1 := eng_add_cookie (engine_before_add d cd) c1 in
  let e2 := eng_add_cookie e1 c2 in
  let t1 := (if py_in cd (browser_domain_of d.(d_eng))
             then [] else [EvGet ("http://" ++ cd)]) ++ [EvAddCookie c1; EvGetCookies] in
  let t2 := t1 ++ [EvAddCookie c2; EvGetCookies] in
  ensure_add_cookie c od d =
  if verified c1 e1 then
    (Ok tt, mk_driver d.(d_default_timeout) d.(d_init_kwargs) e1 (d.(d_log) ++ t1))
  else if verified c2 e2 then
    (Ok tt, mk_driver d.(d_default_timeout) d.(d_init_kwargs) e2 (d.(d_log) ++ t2))
  else
    (Err (WebDriverException cookie_failed_msg (FCookie c2)),
     mk_driver d.(d_default_timeout) d.(d_init_kwargs) e2 (d.(d_log) ++ t2)).
Proof.
  intros Hcd. destruct d as [dt ia e lg].
  unfold ensure_add_cookie, engine_before_add, verified, widened.
  rewrite Hcd. cbn.
  destruct (py_in cd (browser_domain_of e)); cbn;
  destruct (existsb _ _); cbn; try (repeat rewrite <- app_assoc; reflexivity);
  destruct (existsb _ _); cbn; repeat rewrite <- app_assoc; reflexivity.
Qed.

(** C5: when the normalized cookie domain [cd] (leading dot stripped) is not
    a substring of the browser's current fully-qualified domain,
    [ensure_add_cookie] navigates exactly once, to [http://cd], and that
    navigation comes right before the first cookie add; when it is a
    substring, the run starts with the add and navigates nowhere. *)
Theorem ensure_add_cookie_navigates_once (d : @driver E) (c : cookie)
    (od : option string) (cd : string) :
  cookie_domain_of (override_cookie c od).(domain) = Some cd ->
  exists t,
    d_log (snd (ensure_add_cookie c od d)) = d_log d ++ t /\
    (if py_in cd (browser_domain_of d.(d_eng))
     then (exists rest, t = EvAddCookie (override_cookie c od) :: rest) /\
          filter is_nav t = []
     else (exists rest,
             t = EvGet ("http://" ++ cd) :: EvAddCookie (override_cookie c od) :: rest) /\
          filter is_nav t = [EvGet ("http://" ++ cd)]).
Proof.
  intros Hcd. rewrite (ensure_add_cookie_run d c od cd Hcd).
  destruct (py_in cd (browser_domain_of (d_eng d))) eqn:Hin;
  destruct (verified _ _); [| destruct (verified _ _) | | destruct (verified _ _)];
  cbn; eexists; (split; [reflexivity |]); split;
  try (eexists; reflexivity); reflexivity.
Qed.

(** C6: [ensure_add_cookie] submits at most two cookies to the engine: the
    cookie itself, and, only when [is_cookie_in_driver] (name and value
    equal, domain equal or equal up to one leading dot) rejects it, the
    cookie with its domain widened to the registered domain. It raises the
    "Couldn't add the following cookie" [WebDriverException] carrying that
    widened cookie exactly when the second check fails too. *)
Theorem ensure_add_cookie_retries_once (d : @driver E) (c : cookie)
    (od : option string) (cd : string) :
  cookie_domain_of (override_cookie c od).(domain) = Some cd ->
  let c1 := override_cookie c od in
  let c2 := widened c1 in
  let e1 := eng_add_cookie (engine_before_add d cd) c1 in
  let e2 := eng_add_cookie e1 c2 in
  exists t,
    d_log (snd (ensure_add_cookie c od d)) = d_log d ++ t /\
    cookie_adds t = (if verified c1 e1 then [c1] else [c1; c2]) /\
    fst (ensure_add_cookie c od d) =
      (if verified c1 e1 then Ok tt
       else if verified c2 e2 then Ok tt
       else Err (WebDriverException cookie_failed_msg (FCookie c2))).
Proof.
  intros Hcd c1 c2 e1 e2. rewrite (ensure_add_cookie_run d c od cd Hcd).
  fold c1 c2 e1 e2.
  destruct (py_in cd (browser_domain_of (d_eng d)));
  destruct (verified c1 e1); [| destruct (verified c2 e2) | | destruct (verified c2 e2)];
  cbn; eexists; (split; [reflexivity |]); split; reflexivity.
Qed.

(** C10: a cookie whose domain is the empty string (and no override) makes
    [cookie['domain'][0]] raise [IndexError]: nothing is navigated to or
    added, the driver is left as it was. *)
Theorem ensure_add_cookie_empty_domain (d : @driver E) (c : cookie) :
  c.(domain) = "" ->
  ensure_add_cookie c None d = (Err IndexError, d).
Proof.
  intros Hd. unfold ensure_add_cookie, override_cookie, cookie_domain_of.
  rewrite Hd. reflexivity.
Qed.

End CookieBridge.

(** ** DriverMixin.ensure_element *)

Section ElementWait.
Context {E : Type} `{BrowserEngine E}.

Definition element_states : list string := ["present"; "visible"; "clickable"].
Definition supported_states : list string := element_states ++ ["invisible"].

Lemma until_loop_result (cond : nat -> pyval) (i fuel : nat) (d : @driver E) :
  match fst (until_loop cond i fuel d) with
  | Ok v => exists j, v = cond j /\ truthy v = true
  | Err e => e = TimeoutException
  end.
Proof.
  revert i d. induction fuel as [| f IH]; intros i d; cbn;
  destruct (truthy (cond i)) eqn:Ht; cbn; eauto; apply IH.
Qed.

(** A wait on a condition that only yields elements or [False] returns an
    element or times out. *)
Lemma wait_elem_result (timeout : Z) (cond : nat -> pyval) (d : @driver E) :
  (forall j, cond j = PFalse \/ exists e, cond j = PElem e) ->
  match fst (wait_until timeout cond d) with
  | Ok v => exists e, v = PElem e
  | Err e => e = TimeoutException
  end.
Proof.
  intros Hc. pose proof (until_loop_result cond 0 (Z.to_nat (2 * timeout)) d) as R.
  unfold wait_until. destruct (fst _) as [v | e]; [| exact R].
  destruct R as [j [-> Ht]]. destruct (Hc j) as [Hf | [e He]].
  - rewrite Hf in Ht. discriminate.
  - eauto.
Qed.

Lemma elem_ec_shape (e : E) (c : elem_condition) (b s : string) (j : nat) :
  elem_ec e c b s j = PFalse \/ exists el, elem_ec e c b s j = PElem el.
Proof. unfold elem_ec. destruct (eng_element_ec e c b s j); eauto. Qed.

(** The waits of the three element states, with the attachment of
    [ensure_click] that follows them. *)
Lemma wait_and_attach (timeout : Z) (cond : nat -> pyval) (d : @driver E) :
  (forall j, cond j = PFalse \/ exists e, cond j = PElem e) ->
  match fst (bind (wait_until timeout cond)
               (fun element => if truthy element then attach_ensure_click element
                               else ret element) d) with
  | Ok v => exists e, v = PElem e /\ ensure_click e = true
  | Err e => e = TimeoutException
  end.
Proof.
  intros Hc. pose proof (wait_elem_result timeout cond d Hc) as R. unfold bind.
  destruct (wait_until timeout cond d) as [[v | e] d0]; cbn in *; [| exact R].
  destruct R as [e ->]. cbn. eexists; split; reflexivity.
Qed.

Lemma wait_invisible (timeout : Z) (cond : nat -> pyval) (d : @driver E) :
  match fst (bind (wait_until timeout cond ;;; ret PNone)
               (fun element => if truthy element then attach_ensure_click element
                               else ret element) d) with
  | Ok v => v = PNone
  | Err e => e = TimeoutException
  end.
Proof.
  pose proof (until_loop_result cond 0 (Z.to_nat (2 * timeout)) d) as R.
  unfold wait_until in *. unfold bind.
  destruct (until_loop cond 0 (Z.to_nat (2 * timeout)) d) as [[v | e] d0];
  cbn in *; [reflexivity | exact R].
Qed.

(** Every outcome of [ensure_element] for a known locator, by state. *)
Lemma ensure_element_outcome (d : @driver E) (locator selector state : string)
    (timeout : option Z) (b : string) :
  dict_lookup locator locators = Some b ->
  match fst (ensure_element locator selector state timeout d) with
  | Ok v =>
    (In state element_states /\ exists e, v = PElem e /\ ensure_click e = true) \/
    (state = "invisible" /\ v = PNone)
  | Err e =>
    (In state supported_states /\ e = TimeoutException) \/
    (~ In state supported_states /\ e = ValueError state_msg (FStr state))
  end.
Proof.
  intros Hb. unfold ensure_element. rewrite Hb.
  change (fst (?m d)) with (fst (m d)). cbn [bind get_st].
  destruct (String.eqb_spec state "visible") as [-> | Hv].
  { pose proof (wait_and_attach
      (match timeout with Some t => if Z.eqb t 0 then d_default_timeout d else t
                      | None => d_default_timeout d end)
      (elem_ec (d_eng d) VisibilityOfElementLocated b selector) d
      (elem_ec_shape _ _ _ _)) as R.
    destruct (fst _); [left | left]; cbn; intuition. }
  destruct (String.eqb_spec state "clickable") as [-> | Hc].
  { pose proof (wait_and_attach
      (match timeout with Some t => if Z.eqb t 0 then d_default_timeout d else t
                      | None => d_default_timeout d end)
      (elem_ec (d_eng d) ElementToBeClickable b selector) d
      (elem_ec_shape _ _ _ _)) as R.
    destruct (fst _); [left | left]; cbn; intuition. }
  destruct (String.eqb_spec state "present") as [-> | Hp].
  { pose proof (wait_and_attach
      (match timeout with Some t => if Z.eqb t 0 then d_default_timeout d else t
                      | None => d_default_timeout d end)
      (elem_ec (d_eng d) PresenceOfElementLocated b selector) d
      (elem_ec_shape _ _ _ _)) as R.
    destruct (fst _); [left | left]; cbn; intuition. }
  destruct (String.eqb_spec state "invisible") as [-> | Hi].
  { pose proof (wait_invisible
      (match timeout with Some t => if Z.eqb t 0 then d_default_timeout d else t
                      | None => d_default_timeout d end)
      (eng_invisibility_ec (d_eng d) b selector) d) as R.
    destruct (fst _); [right | left]; cbn; intuition. }
  cbn. right. split; [| reflexivity].
  cbn. intuition congruence.
Qed.

(** C2: with a known locator, a state outside present, visible, clickable,
    invisible raises the [ValueError] of [ensure_element] at once: the
    driver, its log included, is untouched, so nothing was polled, slept or
    retried. For the four supported states the call returns or raises the
    [TimeoutException] of the wait, never that [ValueError]. *)
Theorem ensure_element_rejects_unknown_state (d : @driver E)
    (locator selector : string) (timeout : option Z) :
  dict_lookup locator locators <> None ->
  (forall state, ~ In state supported_states ->
     ensure_element locator selector state timeout d =
     (Err (ValueError state_msg (FStr state)), d)) /\
  (forall state, In state supported_states ->
     match fst (ensure_element locator selector state timeout d) with
     | Ok _ => True
     | Err e => e = TimeoutException
     end).
Proof.
  intros Hl. destruct (dict_lookup locator locators) as [b |] eqn:Hb;
    [clear Hl | contradiction]. split.
  - intros state Hn.
    assert (Hne : forall s, In s supported_states -> String.eqb state s = false).
    { intros s0 Hs. apply String.eqb_neq. intros ->. contradiction. }
    unfold ensure_element. rewrite Hb. cbn [bind get_st].
    rewrite (Hne "visible"), (Hne "clickable"), (Hne "present"), (Hne "invisible")
      by (cbn; tauto).
    reflexivity.
  - intros state Hs. pose proof (ensure_element_outcome d locator selector state timeout b Hb) as R.
    destruct (fst _) as [v | e]; [exact I |].
    destruct R as [[_ ->] | [Hn _]]; [reflexivity | contradiction].
Qed.

(** C3: a successful [ensure_element] with state invisible returns [None];
    with state present, visible or clickable it returns an element carrying
    [ensure_click]; and any element it returns carries [ensure_click] and
    comes from one of those three states. *)
Theorem ensure_element_click_capability (d : @driver E)
    (locator selector state : string) (timeout : option Z) (v : pyval) (d' : @driver E) :
  ensure_element locator selector state timeout d = (Ok v, d') ->
  (state = "invisible" -> v = PNone) /\
  (In state element_states -> exists e, v = PElem e /\ ensure_click e = true) /\
  (forall e, v = PElem e -> ensure_click e = true /\ In state element_states).
Proof.
  intros Hrun. destruct (dict_lookup locator locators) as [b |] eqn:Hb.
  2:{ unfold ensure_element in Hrun. rewrite Hb in Hrun. discriminate. }
  pose proof (ensure_element_outcome d locator selector state timeout b Hb) as R.
  rewrite Hrun in R. cbn in R.
  destruct R as [[Hin [e [-> Hc]]] | [-> ->]].
  - split; [| split].
    + intros ->. cbn in Hin. intuition discriminate.
    + intros _. eauto.
    + intros e' He'. injection He' as <-. auto.
  - split; [reflexivity | split].
    + cbn. intuition discriminate.
    + intros e' He'. discriminate.
Qed.

(** ** _ensure_click *)

Definition is_click (ev : event) : bool :=
  match ev with EvClick _ => true | _ => false end.

(** The log of the failed attempts [i], ..., [i + k - 1]: each click is
    followed by the 200ms sleep. *)
Definition failed_attempts (i k : nat) : list event :=
  flat_map (fun j => [EvClick j; EvSleep 200]) (seq i k).

Definition with_log (d : @driver E) (t : list event) : @driver E :=
  mk_driver d.(d_default_timeout) d.(d_init_kwargs) d.(d_eng) (d.(d_log) ++ t).

Lemma click_loop_success (el : webelement) (k : nat) :
  forall (r i : nat) (d : @driver E) (m : option string),
  k < r ->
  (forall j, j < k -> eng_click d.(d_eng) el (i + j) <> None) ->
  eng_click d.(d_eng) el (i + k) = None ->
  click_loop el i r m d = (Ok tt, with_log d (failed_attempts i k ++ [EvClick (i + k)])).
Proof.
  induction k as [| k IH]; intros r i d m Hk Hf Hs; destruct r as [| r]; try lia.
  - cbn. rewrite !Nat.add_0_r in *. rewrite Hs. reflexivity.
  - cbn. destruct (eng_click (d_eng d) el i) as [m1 |] eqn:Hi.
    2:{ exfalso. apply (Hf 0); [lia | rewrite Nat.add_0_r; exact Hi]. }
    cbn. rewrite (IH r (S i)).
    + unfold with_log. cbn. replace (i + S k) with (S i + k) by lia.
      repeat rewrite <- app_assoc. reflexivity.
    + lia.
    + intros j Hj. cbn. rewrite <- Nat.add_succ_r. apply Hf. lia.
    + cbn. rewrite <- Nat.add_succ_r. exact Hs.
Qed.

Lemma click_loop_failure (el : webelement) (r : nat) :
  forall (i : nat) (d : @driver E) (m : option string),
  0 < r ->
  (forall j, j < r -> eng_click d.(d_eng) el (i + j) <> None) ->
  exists ml, eng_click d.(d_eng) el (i + (r - 1)) = Some ml /\
    click_loop el i r m d =
    (Err (WebDriverException click_failed_msg (FStr ml)), with_log d (failed_attempts i r)).
Proof.
  induction r as [| r IH]; intros i d m Hr Hf; [lia |].
  cbn. destruct (eng_click (d_eng d) el i) as [m1 |] eqn:Hi.
  2:{ exfalso. apply (Hf 0); [lia | rewrite Nat.add_0_r; exact Hi]. }
  cbn. destruct r as [| r].
  - exists m1. rewrite Nat.add_0_r. split; [exact Hi |].
    cbn. unfold with_log. cbn. rewrite <- app_assoc. reflexivity.
  - destruct (IH (S i)
      (mk_driver (d_default_timeout d) (d_init_kwargs d) (d_eng d)
         ((d_log d ++ [EvClick i]) ++ [EvSleep 200])) (Some m1))
      as [ml [Hml Hrun]]; [lia | |].
    + intros j Hj. cbn. rewrite <- Nat.add_succ_r. apply Hf. lia.
    + exists ml. split.
      * rewrite <- Hml. f_equal. cbn. lia.
      * rewrite Hrun. unfold with_log. cbn.
        repeat rewrite <- app_assoc. reflexivity.
Qed.

Lemma click_loop_bounded (el : webelement) (r : nat) :
  forall (i : nat) (d : @driver E) (m : option string),
  exists t, d_log (snd (click_loop el i r m d)) = d_log d ++ t /\
            length (filter is_click t) <= r.
Proof.
  induction r as [| r IH]; intros i d m.
  - cbn. destruct m; exists []; rewrite app_nil_r; auto.
  - cbn. destruct (eng_click (d_eng d) el i) as [m1 |].
    + destruct (IH (S i)
        (mk_driver (d_default_timeout d) (d_init_kwargs d) (d_eng d)
           ((d_log d ++ [EvClick i]) ++ [EvSleep 200])) (Some m1)) as [t [Ht Hc]].
      exists ([EvClick i; EvSleep 200] ++ t). cbn in *. rewrite Ht.
      repeat rewrite <- app_assoc. split; [reflexivity | lia].
    + exists [EvClick i]. cbn. split; [reflexivity | lia].
Qed.

(** C4: the robust click runs the centring script, then makes at most 10
    click attempts. When attempt [k] (counting from 0, so the (k+1)-th) is
    the first that succeeds it returns at once; every failed attempt is
    followed by a 200ms sleep; after 10 failures it raises the
    "Couldn't click item after trying 10 times" [WebDriverException]
    carrying the message of the last failure. *)
Theorem ensure_click_bounded_retries (d : @driver E) (el : webelement) :
  let clicks := eng_click d.(d_eng) el in
  let d0 := with_log d [EvExecScript scroll_script] in
  (exists t, d_log (snd (_ensure_click el d)) = d_log d0 ++ t /\
             length (filter is_click t) <= 10) /\
  (forall k, k < 10 -> (forall j, j < k -> clicks j <> None) -> clicks k = None ->
     _ensure_click el d = (Ok tt, with_log d0 (failed_attempts 0 k ++ [EvClick k]))) /\
  ((forall j, j < 10 -> clicks j <> None) ->
     exists m, clicks 9 = Some m /\
     _ensure_click el d =
     (Err (WebDriverException click_failed_msg (FStr m)), with_log d0 (failed_attempts 0 10))).
Proof.
  intros clicks d0. unfold _ensure_click, bind. rewrite log_run. fold (with_log d [EvExecScript scroll_script]).
  fold d0. split; [| split].
  - apply click_loop_bounded.
  - intros k Hk Hf Hs. apply (click_loop_success el k 10 0 d0 None Hk); assumption.
  - intros Hf. destruct (click_loop_failure el 10 0 d0 None) as [m [Hm Hrun]];
      [lia | exact Hf |]. exists m. split; [exact Hm | exact Hrun].
Qed.

End ElementWait.

(** ** Session *)

Section SessionProps.
Context {E : Type} `{BrowserEngine E} `{TldExtract}.

(** C1 (as the code has it): on a Session fresh from [__init__], which
    never assigns [_last_requests_url], pushing cookies with no domain
    evaluates [self._last_requests_url] and raises [AttributeError]; the
    [Exception] of the [elif] branch ("... without having visited any page
    in the current session") is never reached. *)
Theorem transfer_without_visit_attribute_error (profile_path : string)
    (b : string) (t : Z) (hp sp : option string) (ua : string)
    (hd : list (string * string)) :
  match @Session_init E b t hp sp ua hd with
  | Ok s =>
    transfer_session_cookies_to_driver profile_path None s =
    (Err (AttributeError "_last_requests_url"), s)
  | Err _ => True
  end.
Proof.
  unfold Session_init.
  destruct (negb (existsb (String.eqb b) ["chrome"; "firefox"])); [exact I |].
  destruct (String.eqb b "chrome"); reflexivity.
Qed.

(** C7: on a Session fresh from [__init__], the first access to [driver]
    calls the driver class with the keyword arguments [kw] that
    [_start_chromedriver] or [_start_geckodriver] evaluates (what the call
    then gives is up to that class: a Firefox driver, or the [TypeError] of
    [webdriver.Chrome]). Their [desired_capabilities] is a capability dict
    with a MANUAL proxy carrying both endpoints when [http_proxy] and
    [ssl_proxy] are both set (a non-empty string, Python's truthiness
    test), and [None] whenever one of them is missing. *)
Theorem first_driver_proxy_capability (profile_path : string)
    (b : string) (t : Z) (hp sp : option string) (ua : string)
    (hd : list (string * string)) :
  match @Session_init E b t hp sp ua hd with
  | Ok s =>
    exists kw s1,
      initializer_args profile_path (_driver_initializer s) s = (Ok kw, s1) /\
      fst (driver_prop profile_path s) = DriverMixin_init kw /\
      ca_desired_capabilities kw =
      match hp, sp with
      | Some h, Some p =>
        if str_truthy h && str_truthy p
        then Some (mk_capabilities (if String.eqb b "firefox" then "firefox" else "chrome")
                     (Some (mk_proxy "MANUAL" h p)))
        else None
      | _, _ => None
      end
  | Err _ => True
  end.
Proof.
  unfold Session_init.
  destruct (negb (existsb (String.eqb b) ["chrome"; "firefox"])); [exact I |].
  destruct (String.eqb b "chrome");
  unfold driver_prop, run_initializer, initializer_args, _start_chromedriver,
    _start_geckodriver, chromedriver_args, geckodriver_args,
    desired_capabilities, lift_result, bind, get_st, put_st, ret; cbn;
  destruct hp as [h |]; destruct sp as [p |];
  try destruct (str_truthy h); try destruct (str_truthy p); cbn;
  do 2 eexists; (split; [reflexivity |]); split;
  try reflexivity; unfold DriverMixin_init; cbn; reflexivity.
Qed.


(** C8 (amended): for browser firefox the first access to [driver] builds a
    [ReqSeleniumFirefox] whose profile sets [general.useragent.override] to
    the Session's [user_agent] (the random desktop agent drawn in
    [__init__]); the Session's HTTP headers are left as [requests] installed
    them: that agent is never put into them. *)
Theorem firefox_driver_user_agent (profile_path : string) (t : Z)
    (hp sp : option string) (ua : string) (hd : list (string * string)) :
  match @Session_init E "firefox" t hp sp ua hd with
  | Ok s =>
    exists d s', driver_prop profile_path s = (Ok d, s') /\
      ca_class (d_init_kwargs d) = ReqSeleniumFirefox /\
      ca_firefox_profile (d_init_kwargs d) =
        Some (mk_firefox_profile profile_path [("general.useragent.override", ua)]) /\
      user_agent s' = ua /\ headers s = hd /\ headers s' = hd
  | Err _ => False
  end.
Proof.
  cbn. unfold driver_prop, run_initializer, _start_geckodriver, geckodriver_args,
    DriverMixin_init, lift_result, desired_capabilities, bind, get_st, put_st, ret; cbn.
  destruct hp as [h |]; [destruct (str_truthy h) |];
  destruct sp as [p |]; try destruct (str_truthy p); cbn;
  do 2 eexists; repeat split; reflexivity.
Qed.

(** C9: after a successful [get], [post] or [put] ([session_request] with
    the verb), [_last_requests_url] holds the URL of the response requests
    returned, and pushing cookies with no domain (or a falsy one) behaves
    exactly as pushing them with the registered domain of that URL. *)
Theorem request_sets_default_domain (profile_path : string)
    (requests_send : verb -> string -> list jar_cookie -> list (string * string) ->
                     result response * list jar_cookie)
    (v : verb) (url_arg : string) (s s' : @session E) (r : ReqSeleniumResponse) :
  session_request requests_send v url_arg s = (Ok r, s') ->
  _last_requests_url s' = Some (url (_response r)) /\
  (url (_response r) <> "" ->
   forall dom0, opt_truthy dom0 = false ->
   transfer_session_cookies_to_driver profile_path dom0 s' =
   transfer_session_cookies_to_driver profile_path
     (Some (registered_domain (url (_response r)))) s').
Proof.
  unfold session_request, bind, get_st.
  destruct (requests_send v url_arg (cookies s) (headers s)) as [[resp | e] jar];
    [| discriminate].
  cbn. intros Hrun. injection Hrun as <- <-. cbn. split; [reflexivity |].
  intros Hu dom0 Hd.
  assert (Ht : str_truthy (url resp) = true).
  { unfold str_truthy. apply negb_true_iff. apply String.eqb_neq. exact Hu. }
  unfold transfer_session_cookies_to_driver, bind, get_st. cbn.
  rewrite Hd, Ht. cbn.
  destruct (str_truthy (registered_domain (url resp))); reflexivity.
Qed.

End SessionProps.

(** ** C8: the browser's user-agent is not the one the HTTP path sends *)

(** A firefox Session whose random agent is a Firefox desktop string: the
    driver's profile overrides the user-agent with that agent, while the
    headers the HTTP path sends keep requests' [python-requests] agent. *)
Lemma firefox_agent_not_http_agent :
  match @Session_init engine "firefox" 30 None None firefox_agent requests_headers with
  | Ok s =>
    exists d s', driver_prop "/srv/app/profile" s = (Ok d, s') /\
      ca_firefox_profile (d_init_kwargs d) =
        Some (mk_firefox_profile "/srv/app/profile"
                [("general.useragent.override", firefox_agent)]) /\
      dict_lookup "User-Agent" (headers s') = Some "python-requests/2.31.0" /\
      firefox_agent <> "python-requests/2.31.0"
  | Err _ => False
  end.
Proof.
  cbn. do 2 eexists. split; [reflexivity |]. split; [reflexivity |].
  split; [reflexivity | discriminate].
Qed.

(** ** Witnesses: the theorems applied at concrete inputs *)

Lemma ensure_element_rejects_unknown_state_witness :
  dict_lookup "id" locators <> None /\
  ensure_element "id" "login" "hovered" None (fresh_driver true) =
  (Err (ValueError state_msg (FStr "hovered")), fresh_driver true).
Proof.
  split; [discriminate |].
  apply (proj1 (ensure_element_rejects_unknown_state (fresh_driver true) "id" "login" None
                  ltac:(discriminate)) "hovered").
  cbn. intuition discriminate.
Defined.

Lemma ensure_element_click_capability_witness :
  ensure_element "id" "login" "visible" None (fresh_driver true) =
    (Ok (PElem (mk_webelement 7 true)),
     snd (ensure_element "id" "login" "visible" None (fresh_driver true))) /\
  (exists e, PElem (mk_webelement 7 true) = PElem e /\ ensure_click e = true).
Proof.
  split; [vm_compute; reflexivity |].
  apply (ensure_element_click_capability (fresh_driver true) "id" "login" "visible" None
           (PElem (mk_webelement 7 true))
           (snd (ensure_element "id" "login" "visible" None (fresh_driver true))));
    [vm_compute; reflexivity | cbn; tauto].
Defined.

Lemma ensure_click_bounded_retries_witness :
  _ensure_click (mk_webelement 7 true) (fresh_driver true) =
  (Ok tt, with_log (with_log (fresh_driver true) [EvExecScript scroll_script])
            (failed_attempts 0 2 ++ [EvClick 2])).
Proof.
  apply (proj1 (proj2 (ensure_click_bounded_retries (fresh_driver true)
                         (mk_webelement 7 true))) 2); [lia | | reflexivity].
  intros j Hj. cbn. destruct (Nat.leb_spec j 1); [discriminate | lia].
Defined.

Lemma ensure_add_cookie_navigates_once_witness :
  cookie_domain_of (override_cookie site_cookie None).(domain) = Some "site.test" /\
  exists t,
    d_log (snd (ensure_add_cookie site_cookie None (fresh_driver true))) = t /\
    (exists rest, t = EvGet "http://site.test" :: EvAddCookie site_cookie :: rest) /\
    filter is_nav t = [EvGet "http://site.test"].
Proof.
  split; [reflexivity |].
  destruct (ensure_add_cookie_navigates_once (fresh_driver true) site_cookie None "site.test"
              eq_refl) as [t [Ht Hnav]].
  exists t. split; [exact Ht |]. exact Hnav.
Defined.

Lemma ensure_add_cookie_retries_once_witness :
  cookie_domain_of (override_cookie site_cookie None).(domain) = Some "site.test" /\
  exists t,
    d_log (snd (ensure_add_cookie site_cookie None (fresh_driver false))) = t /\
    cookie_adds t = [site_cookie; widened site_cookie] /\
    fst (ensure_add_cookie site_cookie None (fresh_driver false)) =
    Err (WebDriverException cookie_failed_msg (FCookie (widened site_cookie))).
Proof.
  split; [reflexivity |].
  destruct (ensure_add_cookie_retries_once (fresh_driver false) site_cookie None "site.test"
              eq_refl) as [t [Ht [Hadds Hres]]].
  exists t. split; [exact Ht |]. split; [exact Hadds | exact Hres].
Defined.

Definition sample_after_get : @session engine :=
  snd (session_request sample_send GET "http://site.test/login" sample_session).

Definition sample_get_response : ReqSeleniumResponse :=
  ReqSeleniumResponse_init (mk_response "http://site.test/home" "<html></html>").

Lemma request_sets_default_domain_witness :
  session_request sample_send GET "http://site.test/login" sample_session =
    (Ok sample_get_response, sample_after_get) /\
  _last_requests_url sample_after_get = Some "http://site.test/home" /\
  transfer_session_cookies_to_driver "/srv/app/profile" None sample_after_get =
  transfer_session_cookies_to_driver "/srv/app/profile" (Some "site.test/home")
    sample_after_get.
Proof.
  assert (Hrun : session_request sample_send GET "http://site.test/login" sample_session =
                 (Ok sample_get_response, sample_after_get)) by (vm_compute; reflexivity).
  split; [exact Hrun |].
  destruct (request_sets_default_domain "/srv/app/profile" sample_send GET
              "http://site.test/login" sample_session sample_after_get sample_get_response
              Hrun) as [Hl Ht].
  split; [exact Hl |]. apply Ht; [discriminate | reflexivity].
Defined.

Lemma ensure_add_cookie_empty_domain_witness :
  domain (mk_cookie "a" "1" None None "") = "" /\
  ensure_add_cookie (mk_cookie "a" "1" None None "") None (fresh_driver true) =
  (Err IndexError, fresh_driver true).
Proof.
  split; [reflexivity |]. apply ensure_add_cookie_empty_domain. reflexivity.
Defined.

(** * Further properties of the code *)

(** ** DriverMixin.ensure_element and its wrappers *)

Section ElementWaitMore.
Context {E : Type} `{BrowserEngine E}.

Definition is_poll (ev : event) : bool :=
  match ev with EvPoll _ => true | _ => false end.

(** The timeout [ensure_element] waits with: [timeout], or
    [self.default_timeout] when [timeout] is [None] or [0]. *)
Definition effective_timeout (d : @driver E) (timeout : option Z) : Z :=
  match timeout with
  | Some t => if Z.eqb t 0 then d.(d_default_timeout) else t
  | None => d.(d_default_timeout)
  end.

(** What a wait leaves behind: the same engine, timeout and construction
    arguments, and a log extended by polls and 500ms sleeps only. *)
Definition wait_only (d d' : @driver E) (bound : nat) : Prop :=
  d_eng d' = d_eng d /\ d_default_timeout d' = d_default_timeout d /\
  d_init_kwargs d' = d_init_kwargs d /\
  exists tr, d_log d' = d_log d ++ tr /\
    (forall ev, In ev tr -> is_poll ev = true \/ ev = EvSleep 500) /\
    length (filter is_poll tr) <= bound.

Lemma until_loop_wait_only (cond : nat -> pyval) (fuel : nat) :
  forall (i : nat) (d : @driver E), wait_only d (snd (until_loop cond i fuel d)) (S fuel).
Proof.
  induction fuel as [| f IH]; intros i d; cbn;
    destruct (truthy (cond i)); cbn;
    try refine (conj eq_refl (conj eq_refl (conj eq_refl _))).
  - exists [EvPoll i]. split; [reflexivity | split; [| cbn; lia]].
    intros ev [<- | []]; auto.
  - exists [EvPoll i; EvSleep 500]. split; [rewrite <- app_assoc; reflexivity | split; [| cbn; lia]].
    intros ev [<- | [<- | []]]; auto.
  - exists [EvPoll i]. split; [reflexivity | split; [| cbn; lia]].
    intros ev [<- | []]; auto.
  - destruct (IH (S i) (mk_driver (d_default_timeout d) (d_init_kwargs d) (d_eng d)
                          ((d_log d ++ [EvPoll i]) ++ [EvSleep 500])))
      as [He [Ht [Hk [tr [Hl [Hev Hn]]]]]].
    cbn in He, Ht, Hk, Hl. unfold wait_only. rewrite He, Ht, Hk.
    refine (conj eq_refl (conj eq_refl (conj eq_refl _))).
    exists ([EvPoll i; EvSleep 500] ++ tr). split; [| split].
    + rewrite Hl. repeat rewrite <- app_assoc. reflexivity.
    + intros ev Hin. apply in_app_or in Hin as [[<- | [<- | []]] | Hin]; auto.
    + cbn. lia.
Qed.

Lemma wait_only_bind (m : SE (@driver E) pyval) (k : pyval -> SE (@driver E) pyval)
    (d : @driver E) (n : nat) :
  wait_only d (snd (m d)) n ->
  (forall v d1, wait_only d1 (snd (k v d1)) 0) ->
  wait_only d (snd (bind m k d)) n.
Proof.
  intros Hm Hk. unfold bind. destruct (m d) as [[v | e] d1] eqn:Hmd; cbn in *; [| exact Hm].
  destruct Hm as [He [Ht [Hi [tr [Hl [Hev Hn]]]]]].
  destruct (Hk v d1) as [He' [Ht' [Hi' [tr' [Hl' [Hev' Hn']]]]]].
  repeat split; try congruence.
  exists (tr ++ tr'). repeat split.
  - rewrite Hl', Hl. symmetry. apply app_assoc.
  - intros ev Hin. apply in_app_or in Hin as [Hin | Hin]; auto.
  - rewrite filter_app, length_app. lia.
Qed.

Lemma wait_only_refl (d : @driver E) (n : nat) : wait_only d d n.
Proof. repeat split. exists []. rewrite app_nil_r. repeat split; [intros ev [] | cbn; lia]. Qed.

Lemma attach_wait_only (v : pyval) (d : @driver E) :
  wait_only d (snd ((if truthy v then attach_ensure_click v else ret v) d)) 0.
Proof. destruct v; cbn; apply wait_only_refl. Qed.

(** [ensure_element] only waits: it never navigates, adds cookies, clicks or
    otherwise touches the engine, and it polls at most
    [2 * timeout + 1] times, [timeout] being its effective timeout. *)
Theorem ensure_element_only_waits (d : @driver E) (locator selector state : string)
    (timeout : option Z) :
  wait_only d (snd (ensure_element locator selector state timeout d))
    (S (Z.to_nat (2 * effective_timeout d timeout))).
Proof.
  unfold ensure_element. destruct (dict_lookup locator locators) as [b |];
    [| apply wait_only_refl].
  cbn [bind get_st]. fold (effective_timeout d timeout).
  apply wait_only_bind; [| intros; apply attach_wait_only].
  destruct (String.eqb state "visible"); [apply until_loop_wait_only |].
  destruct (String.eqb state "clickable"); [apply until_loop_wait_only |].
  destruct (String.eqb state "present"); [apply until_loop_wait_only |].
  destruct (String.eqb state "invisible"); [| apply wait_only_refl].
  apply wait_only_bind; [apply until_loop_wait_only |].
  intros; apply wait_only_refl.
Qed.

(** [timeout=None] and [timeout=0] both mean the driver's default timeout:
    the three calls behave identically. *)
Theorem ensure_element_default_timeout (d : @driver E) (locator selector state : string) :
  ensure_element locator selector state None d =
    ensure_element locator selector state (Some 0%Z) d /\
  ensure_element locator selector state None d =
    ensure_element locator selector state (Some (d_default_timeout d)) d.
Proof.
  unfold ensure_element. destruct (dict_lookup locator locators); [| split; reflexivity].
  cbn [bind get_st]. rewrite Z.eqb_refl.
  destruct (Z.eqb_spec (d_default_timeout d) 0) as [->|]; split; reflexivity.
Qed.

End ElementWaitMore.

(** ** Session: construction, the driver property, requests *)

Section SessionMore.
Context {E : Type} `{BrowserEngine E} `{TldExtract}.

(** Whether the [driver] property can return a driver: one is stored
    already, or the class chosen at construction accepts the keywords the
    Session passes. *)
Definition driver_available (s : @session E) : bool :=
  match s.(_driver) with
  | Some _ => true
  | None => webdriver_accepts_timeout s.(_driver_initializer)
  end.

(** The run of the [driver] property when it can return a driver. *)
Lemma driver_prop_run (profile_path : string) (s : @session E) :
  driver_available s = true ->
  exists d s',
    driver_prop profile_path s = (Ok d, s') /\ _driver s' = Some d /\
    (forall d0, _driver s = Some d0 -> d = d0 /\ s' = s) /\
    (_driver s = None ->
       ca_class (d_init_kwargs d) = _driver_initializer s /\
       d_default_timeout d = default_timeout s /\ d_log d = []) /\
    browser s' = browser s /\ default_timeout s' = default_timeout s /\
    http_proxy s' = http_proxy s /\ ssl_proxy s' = ssl_proxy s /\
    user_agent s' = user_agent s /\ _driver_initializer s' = _driver_initializer s /\
    _last_requests_url s' = _last_requests_url s /\
    cookies s' = cookies s /\ headers s' = headers s.
Proof.
  destruct s as [dc dr b t hp sp ua init lu jar hd].
  destruct dr as [d0 |]; intros Hav.
  - exists d0, (mk_session dc (Some d0) b t hp sp ua init lu jar hd).
    cbn. repeat split; congruence.
  - destruct init; [discriminate |].
    unfold driver_prop, run_initializer, _start_geckodriver, geckodriver_args,
      DriverMixin_init, lift_result, desired_capabilities, bind, get_st, put_st, ret.
    cbn; destruct hp, sp, dc; cbn;
    try destruct (str_truthy _ && str_truthy _); cbn;
    (eexists _, _; split; [reflexivity |]);
    cbn; repeat split; discriminate.
Qed.

(** The [driver] property starts the browser only on its first access. For
    a Firefox session it stores the new driver (of that class, with the
    session's [default_timeout] and an untouched engine) in [_driver], and
    every later access returns that same driver without starting another.
    For a Chrome session without a driver, [webdriver.Chrome] rejects the
    forwarded [timeout] keyword: the access raises [TypeError], [_driver]
    stays [None], the next access raises again, and the cookies and headers
    are untouched. *)
Theorem driver_started_once (profile_path : string) (s : @session E) :
  if driver_available s then
    exists d s',
      driver_prop profile_path s = (Ok d, s') /\ _driver s' = Some d /\
      driver_prop profile_path s' = (Ok d, s') /\
      (_driver s = None ->
         ca_class (d_init_kwargs d) = _driver_initializer s /\
         d_default_timeout d = default_timeout s /\ d_log d = [])
  else
    exists s',
      driver_prop profile_path s = (Err (TypeError timeout_kwarg_msg), s') /\
      _driver s' = None /\
      fst (driver_prop profile_path s') = Err (TypeError timeout_kwarg_msg) /\
      cookies s' = cookies s /\ headers s' = headers s.
Proof.
  destruct (driver_available s) eqn:Hav.
  - destruct (driver_prop_run profile_path s Hav)
      as [d [s' [Hrun [Hdrv [_ [Hnew _]]]]]].
    exists d, s'. split; [exact Hrun | split; [exact Hdrv | split; [| exact Hnew]]].
    unfold driver_prop, bind, get_st. rewrite Hdrv. reflexivity.
  - destruct s as [dc [d0 |] b t hp sp ua [|] lu jar hd]; try discriminate.
    unfold driver_prop, run_initializer, _start_chromedriver, chromedriver_args,
      DriverMixin_init, lift_result, desired_capabilities, bind, get_st, put_st, ret.
    cbn; destruct hp, sp, dc; cbn;
    try destruct (str_truthy _ && str_truthy _) eqn:Hp; cbn;
    (eexists; split; [reflexivity |]); cbn;
    try rewrite Hp; cbn; repeat split.
Qed.

Section Requests.
Variable requests_send :
  verb -> string -> list jar_cookie -> list (string * string) ->
  result response * list jar_cookie.

(** [Session.get], [post] and [put] go through requests only: they send the
    session's cookies and headers, keep the jar requests leaves, and never
    start or touch the browser, the capabilities or the headers. On success
    they record the final URL of the response in [_last_requests_url] and
    return a wrapper whose selector is not parsed yet; a request that raises
    leaves [_last_requests_url] as it was. *)
Theorem session_request_http_only (v : verb) (u : string) (s : @session E) :
  let (r, s') := session_request requests_send v u s in
  _driver s' = _driver s /\ _desired_capabilities s' = _desired_capabilities s /\
  headers s' = headers s /\ user_agent s' = user_agent s /\
  _driver_initializer s' = _driver_initializer s /\
  match r with
  | Ok w =>
    requests_send v u (cookies s) (headers s) = (Ok (_response w), cookies s') /\
    _last_requests_url s' = Some (url (_response w)) /\ _selector w = None
  | Err e =>
    requests_send v u (cookies s) (headers s) = (Err e, cookies s') /\
    _last_requests_url s' = _last_requests_url s
  end.
Proof.
  unfold session_request, bind, get_st, put_st, ret, raise.
  destruct (requests_send v u (cookies s) (headers s)) as [[resp | e] jar] eqn:Hr;
    cbn; repeat split; auto.
Qed.

End Requests.

(** Pushing cookies for an explicit non-empty [domain] that none of the
    session's cookies contains does nothing: no browser is started and the
    session is unchanged, whether or not a page was visited before. *)
Theorem transfer_no_matching_cookie (profile_path : string) (dom : string) (s : @session E) :
  str_truthy dom = true ->
  (forall c, In c (cookies s) -> py_in dom (jc_domain c) = false) ->
  transfer_session_cookies_to_driver profile_path (Some dom) s = (Ok tt, s).
Proof.
  intros Hd Hc. unfold transfer_session_cookies_to_driver, bind, get_st.
  cbn [opt_truthy]. rewrite Hd. cbn [negb ret].
  replace (filter (fun c => py_in dom (jc_domain c)) (cookies s)) with (@nil jar_cookie);
    [reflexivity |].
  induction (cookies s) as [| c r IH]; [reflexivity |].
  cbn. rewrite (Hc c (or_introl eq_refl)).
  apply IH. intros c' Hin. apply Hc. right. exact Hin.
Qed.

End SessionMore.

(** ** requests' CaseInsensitiveDict headers and cookie jar *)

Lemma key_ci_trans (a b c : string) :
  key_ci a b = true -> key_ci a c = key_ci b c.
Proof. unfold key_ci. intros Hab. apply String.eqb_eq in Hab. rewrite Hab. reflexivity. Qed.

Lemma key_ci_sym (a b : string) : key_ci a b = key_ci b a.
Proof. unfold key_ci. apply String.eqb_sym. Qed.

Lemma headers_get_app_miss (hs : list (string * string)) (k k' v : string) :
  key_ci k k' = false -> headers_get (hs ++ [(k, v)]) k' = headers_get hs k'.
Proof.
  intros Hk. induction hs as [| [k0 v0] r IH]; cbn -[key_ci]; [rewrite Hk; reflexivity |].
  destruct (key_ci k0 k'); [reflexivity | exact IH].
Qed.

(** Setting [headers[k]] makes every case variant of [k] read back the new
    value. *)
Lemma headers_get_set_same (hs : list (string * string)) (k k' v : string) :
  key_ci k k' = true -> headers_get (headers_set hs k v) k' = Some v.
Proof.
  intros Hk. unfold headers_set.
  destruct (existsb (fun kv => key_ci (fst kv) k) hs) eqn:Hex.
  - induction hs as [| [k0 v0] r IH]; [discriminate |].
    cbn -[key_ci] in Hex |- *. destruct (key_ci k0 k) eqn:H0; cbn -[key_ci].
    + rewrite Hk. reflexivity.
    + rewrite key_ci_sym in Hk. rewrite key_ci_sym, (key_ci_trans k' k k0 Hk),
        key_ci_sym, H0. exact (IH Hex).
  - induction hs as [| [k0 v0] r IH]; cbn -[key_ci]; [rewrite Hk; reflexivity |].
    cbn -[key_ci] in Hex. apply Bool.orb_false_iff in Hex as [H0 Hr].
    rewrite key_ci_sym in Hk. rewrite key_ci_sym, (key_ci_trans k' k k0 Hk),
      key_ci_sym, H0. exact (IH Hr).
Qed.

(** Setting [headers[k]] leaves the value read under any other key. *)
Lemma headers_get_set_other (hs : list (string * string)) (k k' v : string) :
  key_ci k k' = false -> headers_get (headers_set hs k v) k' = headers_get hs k'.
Proof.
  intros Hk. unfold headers_set.
  destruct (existsb (fun kv => key_ci (fst kv) k) hs); [| apply headers_get_app_miss, Hk].
  induction hs as [| [k0 v0] r IH]; [reflexivity |].
  cbn -[key_ci]. destruct (key_ci k0 k) eqn:H0; cbn -[key_ci].
  - rewrite Hk, (key_ci_trans k0 k k' H0), Hk. exact IH.
  - destruct (key_ci k0 k'); [reflexivity | exact IH].
Qed.












(** ** Session: the cookie and user-agent bridges from the browser *)

Section SessionRestMore.
Context {E : Type} `{BrowserEngine E} `{ScriptEngine E} `{TldExtract}.
Variable profile_path : string.

Lemma on_driver_run {A} (m : SE (@driver E) A) (s s1 : @session E) (d : @driver E) :
  driver_prop profile_path s = (Ok d, s1) ->
  on_driver profile_path m s =
    (match fst (m d) with Ok a => Ok a | Err e => Err e end,
     set_driver s1 (Some (snd (m d)))).
Proof.
  intros Hd. unfold on_driver, bind at 1. rewrite Hd.
  unfold bind, get_st, put_st, ret, raise.
  destruct (m d) as [[a | e] d']; reflexivity.
Qed.

Lemma driver_prop_started (s : @session E) (d : @driver E) :
  _driver s = Some d -> driver_prop profile_path s = (Ok d, s).
Proof. intros Hd. unfold driver_prop, bind, get_st. rewrite Hd. reflexivity. Qed.

Lemma copy_user_agent_run (s : @session E) :
  driver_available s = true ->
  exists d s',
    copy_user_agent_from_driver profile_path s = (Ok tt, s') /\ _driver s' = Some d /\
    headers s' = headers_update (headers s)
                   ("user-agent", eng_execute_script (d_eng d) user_agent_script) /\
    cookies s' = cookies s /\
    (forall d0, _driver s = Some d0 -> d_eng d = d_eng d0).
Proof.
  intros Hav.
  destruct (driver_prop_run profile_path s Hav)
    as [d [s1 [Hrun [Hdrv [Hold [_ [_ [_ [_ [_ [_ [_ [_ [Hc Hh]]]]]]]]]]]]]].
  unfold copy_user_agent_from_driver, bind at 1.
  rewrite (on_driver_run _ s s1 d Hrun). cbn.
  eexists _, _. split; [reflexivity |]. cbn.
  repeat split; cbn [d_eng]; try congruence.
  intros d0 Hd0. destruct (Hold d0 Hd0) as [-> _]. reflexivity.
Qed.

(** When the [driver] property can return a driver (one is running, or the
    session is a Firefox one), [copy_user_agent_from_driver] starts the
    browser if needed and sets the 'User-Agent' header of requests (read
    case-insensitively) to the browser's [navigator.userAgent]; a running
    browser is reused, every other header and the cookie jar are kept. *)
Theorem copy_user_agent_sets_header (s : @session E) :
  driver_available s = true ->
  exists d s',
    copy_user_agent_from_driver profile_path s = (Ok tt, s') /\ _driver s' = Some d /\
    headers_get (headers s') "User-Agent" =
      Some (eng_execute_script (d_eng d) user_agent_script) /\
    (forall k, key_ci k "user-agent" = false ->
       headers_get (headers s') k = headers_get (headers s) k) /\
    cookies s' = cookies s /\
    (forall d0, _driver s = Some d0 -> d_eng d = d_eng d0).
Proof.
  intros Hav.
  destruct (copy_user_agent_run s Hav) as [d [s' [Hrun [Hd [Hh [Hc Hold]]]]]].
  exists d, s'. split; [exact Hrun | split; [exact Hd | split; [| split; [| split; assumption]]]].
  - rewrite Hh. apply headers_get_set_same. reflexivity.
  - intros k Hk. rewrite Hh. apply headers_get_set_other.
    rewrite key_ci_sym. exact Hk.
Qed.




End SessionRestMore.

(** ** ReqSeleniumResponse *)

Section ResponseMore.
Context `{Parsel}.

(** A [ReqSeleniumResponse] parses [response.text] once: the first query
    stores the selector, and from then on [xpath], [css], [re] and
    [re_first] all answer over that same selector and leave the wrapper as
    it is. *)
Theorem response_parsed_once (resp : response) (q : string) :
  let r1 := mk_ReqSeleniumResponse resp (Some (text resp)) in
  let sel := mk_selector (text resp) in
  response_selector (ReqSeleniumResponse_init resp) = (Ok sel, r1) /\
  response_xpath q (ReqSeleniumResponse_init resp) = (Ok (sel_xpath sel q), r1) /\
  response_css q (ReqSeleniumResponse_init resp) = (Ok (sel_css sel q), r1) /\
  response_re q (ReqSeleniumResponse_init resp) = (Ok (sel_re sel q), r1) /\
  response_re_first q (ReqSeleniumResponse_init resp) = (Ok (sel_re_first sel q), r1) /\
  response_selector r1 = (Ok sel, r1) /\
  response_xpath q r1 = (Ok (sel_xpath sel q), r1) /\
  response_css q r1 = (Ok (sel_css sel q), r1) /\
  response_re q r1 = (Ok (sel_re sel q), r1) /\
  response_re_first q r1 = (Ok (sel_re_first sel q), r1).
Proof. repeat split. Qed.

End ResponseMore.

(** ** The further properties on the sample engine *)

Lemma transfer_no_matching_cookie_witness :
  str_truthy "other.test" = true /\
  (forall c, In c (cookies sample_session) -> py_in "other.test" (jc_domain c) = false) /\
  transfer_session_cookies_to_driver "/srv/app/profile" (Some "other.test") sample_session =
    (Ok tt, sample_session).
Proof.
  assert (H1 : str_truthy "other.test" = true) by reflexivity.
  assert (H2 : forall c, In c (cookies sample_session) ->
                 py_in "other.test" (jc_domain c) = false)
    by (intros c [<- | []]; vm_compute; reflexivity).
  exact (conj H1 (conj H2 (transfer_no_matching_cookie "/srv/app/profile" "other.test"
                             sample_session H1 H2))).
Defined.

Lemma copy_user_agent_sets_header_witness :
  driver_available sample_session = true /\
  exists d s',
    copy_user_agent_from_driver "/srv/app/profile" sample_session = (Ok tt, s') /\
    headers_get (headers s') "User-Agent" =
      Some (eng_execute_script (d_eng d) user_agent_script).
Proof.
  assert (Hav : driver_available sample_session = true) by reflexivity.
  split; [exact Hav |].
  destruct (copy_user_agent_sets_header "/srv/app/profile" sample_session Hav)
    as [d [s' [Hrun [_ [Hua _]]]]].
  exists d, s'. split; [exact Hrun | exact Hua].
Defined.


Example sample_chrome_driver_type_error :
  match @Session_init engine "chrome" 30 None None firefox_agent requests_headers with
  | Ok s => fst (driver_prop "/srv/app/profile" s) = Err (TypeError timeout_kwarg_msg)
  | Err _ => False
  end.
Proof. reflexivity. Qed.
